(** * Product carousel script: a shallow embedding and its properties

    The script under study is one immediately-invoked function.  It reads a
    product list from [localStorage] or from the network, renders a carousel,
    binds four click handlers and restores the favourite marks.  This file
    embeds it as state-passing functions over a record [world] that holds
    everything the script can observe or change: the storage, the pending
    network answers, the rendered carousel, and the logs of [window.open] and
    [console.error].

    Conventions of the embedding.
    - JavaScript values that come out of [JSON.parse] are of type [json];
      [undefined] is the [None] of [option json].  A number is a rational
      in lowest terms, which every finite double is: the script does no
      arithmetic on the numbers of the feed, it compares them with [===]
      and tests them for truthiness.
    - A string kept by [localStorage] or carried by a response body is only
      ever passed to [JSON.parse]; it is represented by what [JSON.parse]
      makes of it (type [text]).
    - Pixel quantities are integers (multiples of the unit of the layout),
      and a click is handled after the animation started by the previous
      one has ended.
    - The script runs once per page load, on a host page that has the
      anchor element. *)

From Stdlib Require Import ZArith Qcanon Lia.
From stdpp Require Import numbers gmap strings list.

Open Scope string_scope.
Open Scope Z_scope.

(** ** Values *)

Set Warnings "-register-all".

Inductive json : Type :=
| JNull
| JBool (b : bool)
| JNum (q : Qc)
| JStr (s : string)
| JArr (elems : list json)
| JObj (fields : list (string * json)).

(** [!v] is false exactly for these values. *)
Definition truthy (v : json) : bool :=
  match v with
  | JNull => false
  | JBool b => b
  | JNum q => negb (Qc_eq_bool q (Qc_of_Z 0))
  | JStr s => negb (String.eqb s "")
  | JArr _ | JObj _ => true
  end.

Definition truthy_opt (v : option json) : bool :=
  match v with
  | Some x => truthy x
  | None => false
  end.

(** [a === b].  Primitives are compared by value.  Arrays and objects are
    compared by reference; the two sides of every [===] of the script are
    read from different places (a parsed text and a [data-id]), so they never
    alias. *)
Definition strict_eq (a b : json) : bool :=
  match a, b with
  | JNull, JNull => true
  | JBool x, JBool y => Bool.eqb x y
  | JNum x, JNum y => Qc_eq_bool x y
  | JStr x, JStr y => String.eqb x y
  | _, _ => false
  end.

Definition strict_eq_opt (a : option json) (b : json) : bool :=
  match a with
  | Some x => strict_eq x b
  | None => false
  end.

(** Null, booleans, numbers and strings. *)
Definition primitive (v : json) : bool :=
  match v with
  | JArr _ | JObj _ => false
  | _ => true
  end.

Inductive exn : Type :=
| SyntaxError
| TypeError
| NetworkError
| Error (msg : string).

Inductive result (A : Type) : Type :=
| Ok (a : A)
| Throw (e : exn).
Arguments Ok {A} a.
Arguments Throw {A} e.

Fixpoint assoc (k : string) (fields : list (string * json)) : option json :=
  match fields with
  | [] => None
  | (k', v) :: rest => if String.eqb k k' then Some v else assoc k rest
  end.

(** [o.k] for one of the keys the script reads ([id], [img], [name], [price],
    [url]): a TypeError on [null], the field of an object, and [undefined] on
    everything else. *)
Definition get_prop (o : json) (k : string) : result (option json) :=
  match o with
  | JNull => Throw TypeError
  | JObj fields => Ok (assoc k fields)
  | _ => Ok None
  end.

(** The receiver of [.map], [.find], [.push], [.filter] and [.forEach]: on a
    value that is not an array the method is missing and the call is a
    TypeError. *)
Definition as_array (v : json) : result (list json) :=
  match v with
  | JArr l => Ok l
  | _ => Throw TypeError
  end.

(** ** Texts *)

Inductive text : Type :=
| Json (v : json)        (* a text that JSON.parse maps to [v] *)
| NotJson (raw : string) (* a text that JSON.parse rejects *).

(** [JSON.parse(t)], where [t] is a string or the [null] that [getItem]
    returns for a missing key; [null] is first converted to the text
    ["null"]. *)
Definition JSON_parse (t : option text) : result json :=
  match t with
  | None => Ok JNull
  | Some (Json v) => Ok v
  | Some (NotJson _) => Throw SyntaxError
  end.

Definition JSON_stringify (v : json) : text := Json v.

(** ** The page and the browser *)

Record item : Type := Item {
  data_id : json;    (* what [.data("id")] reads on the item *)
  favorited : bool   (* class [favorited] on the item's favourite button *)
}.

(** What the handlers bound by one run of [setEvents] have captured. *)
Record closure : Type := Closure {
  cl_products : json;
  cl_itemWidth : option Z
}.

Record carousel : Type := Carousel {
  items : list item;
  scrollLeft : Z;
  handlers : option closure
}.

(** Sizes reported by the layout engine for the rendered carousel. *)
Record layout : Type := Layout {
  item_outer_width : Z;     (* [outerWidth(true)] of the first item *)
  track_scroll_width : Z;   (* [scrollWidth] of the track *)
  container_width : Z       (* [width()] of the track container *)
}.

Inductive fetch_result : Type :=
| Unreachable
| Response (ok : bool) (body : text).

Record world : Type := World {
  storage : gmap string text;          (* localStorage *)
  network : list fetch_result;         (* answers to the coming requests *)
  requests : list string;              (* URLs requested so far *)
  dom : option carousel;               (* the carousel, once rendered *)
  styles : nat;                        (* style elements appended to head *)
  geometry : layout;
  opened : list (json * string);       (* calls of window.open *)
  console : list (string * json);      (* calls of console.error *)
  uncaught : list exn;                 (* exceptions that left a handler *)
  event_stopped : bool                 (* stopPropagation flag of the event *)
}.

Definition set_storage (s : gmap string text) (w : world) : world :=
  World s (network w) (requests w) (dom w) (styles w) (geometry w)
        (opened w) (console w) (uncaught w) (event_stopped w).

Definition set_dom (d : option carousel) (w : world) : world :=
  World (storage w) (network w) (requests w) d (styles w) (geometry w)
        (opened w) (console w) (uncaught w) (event_stopped w).

Definition set_stopped (b : bool) (w : world) : world :=
  World (storage w) (network w) (requests w) (dom w) (styles w) (geometry w)
        (opened w) (console w) (uncaught w) b.

(** ** The monad of the script: state and exceptions *)

Definition M (A : Type) : Type := world -> result A * world.

Definition ret {A} (a : A) : M A := fun w => (Ok a, w).

Definition throw {A} (e : exn) : M A := fun w => (Throw e, w).

Definition bind {A B} (m : M A) (k : A -> M B) : M B :=
  fun w =>
    match m w with
    | (Ok a, w') => k a w'
    | (Throw e, w') => (Throw e, w')
    end.

Definition lift {A} (r : result A) : M A := fun w => (r, w).

Notation "'run' x <- m 'in' k" := (bind m (fun x => k))
  (at level 10, x name, m at level 100, k at level 200, only parsing).

(** ** Browser primitives used by the script *)

Definition getItem (key : string) : M (option text) :=
  fun w => (Ok (storage w !! key), w).

(** [localStorage.setItem(key, value)], on a storage with room left. *)
Definition setItem (key : string) (value : text) : M unit :=
  fun w => (Ok tt, set_storage (<[key := value]> (storage w)) w).

(** [fetch(url)]: the request is recorded and the next pending answer is
    consumed; the promise rejects when the server cannot be reached. *)
Definition fetch (url : string) : M (bool * text) :=
  fun w =>
    let w' := World (storage w) (tl (network w)) (requests w ++ [url]) (dom w)
                    (styles w) (geometry w) (opened w) (console w)
                    (uncaught w) (event_stopped w) in
    match network w with
    | Response ok body :: _ => (Ok (ok, body), w')
    | _ => (Throw NetworkError, w')
    end.

(** [response.json()]. *)
Definition response_json (response : bool * text) : M json :=
  lift (JSON_parse (Some (snd response))).

Definition window_open (url : json) (target : string) : M unit :=
  fun w => (Ok tt,
            World (storage w) (network w) (requests w) (dom w) (styles w)
                  (geometry w) (opened w ++ [(url, target)]) (console w)
                  (uncaught w) (event_stopped w)).

Definition console_error (msg : string) (arg : json) : M unit :=
  fun w => (Ok tt,
            World (storage w) (network w) (requests w) (dom w) (styles w)
                  (geometry w) (opened w) (console w ++ [(msg, arg)])
                  (uncaught w) (event_stopped w)).

(** [e.stopPropagation()]. *)
Definition stopPropagation : M unit :=
  fun w => (Ok tt, set_stopped true w).

(** A jQuery call on the elements of the carousel; on a page without
    carousel the selection is empty and the call does nothing. *)
Definition update_carousel (f : carousel -> carousel) : M unit :=
  fun w => (Ok tt, set_dom (option_map f (dom w)) w).

Definition with_items (f : list item -> list item) (c : carousel) : carousel :=
  Carousel (f (items c)) (scrollLeft c) (handlers c).

(** [$trackContainer.animate({ scrollLeft: target }, 300)], once finished. *)
Definition animate_scrollLeft (target : Z) : M unit :=
  update_carousel (fun c => Carousel (items c) target (handlers c)).

(** [$trackContainer.scrollLeft()]. *)
Definition get_scrollLeft : M Z :=
  fun w => (Ok (from_option scrollLeft 0 (dom w)), w).

(** ** The script *)

Definition productAPI : string :=
  "https://gist.githubusercontent.com/sevindi/5765c5812bbc8238a38b3cf52f233651/raw/56261d81af8561bf0a7cf692fe572f9e1e91f372/products.json".
Definition localStorageKey : string := "productCarouselData".
Definition favoritesKey : string := "favorites".

Definition fetchProducts : M json :=
  run response <- fetch productAPI in
  if negb (fst response) then throw (Error "Failed to fetch products.")
  else response_json response.

(** The [data-id] attribute is written from [product.id] by a template
    literal and read back by jQuery's [.data("id")].  A missing [id] is
    written as the text [undefined] and read back as that string.  The round
    trip gives the identifier back when it is a number, a boolean or null,
    or a string that does not spell one of those or a JSON array or object;
    identifiers are taken in that domain. *)
Definition attr_data (id : option json) : json :=
  match id with
  | Some v => v
  | None => JStr "undefined"
  end.

(** One item of the template of [buildHTML]: the four properties are read on
    the product, which fails on [null]. *)
Definition render_item (product : json) : result item :=
  match get_prop product "id", get_prop product "img",
        get_prop product "name", get_prop product "price" with
  | Ok id, Ok _, Ok _, Ok _ => Ok (Item (attr_data id) false)
  | Throw e, _, _, _ | _, Throw e, _, _ | _, _, Throw e, _ | _, _, _, Throw e =>
      Throw e
  end.

Fixpoint render_items (products : list json) : result (list item) :=
  match products with
  | [] => Ok []
  | p :: rest =>
      match render_item p with
      | Throw e => Throw e
      | Ok it =>
          match render_items rest with
          | Throw e => Throw e
          | Ok its => Ok (it :: its)
          end
      end
  end.

(** [buildHTML]: the markup is computed from [products] and inserted after
    the anchor of the host page.  The script runs once per page load, so the
    carousel it inserts is the carousel of the page, scrolled to the left and
    without handlers. *)
Definition buildHTML (products : json) : M unit :=
  run ps <- lift (as_array products) in
  run its <- lift (render_items ps) in
  fun w => (Ok tt, set_dom (Some (Carousel its 0 None)) w).

Definition buildCSS : M unit :=
  fun w => (Ok tt,
            World (storage w) (network w) (requests w) (dom w) (S (styles w))
                  (geometry w) (opened w) (console w) (uncaught w)
                  (event_stopped w)).

(** [$items.outerWidth(true)]: the width of the first item, margins
    included, and [undefined] when no item is rendered. *)
Definition items_outerWidth : M (option Z) :=
  fun w =>
    (Ok match dom w with
        | Some c =>
            match items c with
            | [] => None
            | _ :: _ => Some (item_outer_width (geometry w))
            end
        | None => None
        end, w).

(** [$track[0].scrollWidth - $trackContainer.width()]. *)
Definition max_scrollLeft : M Z :=
  fun w =>
    (Ok (track_scroll_width (geometry w) - container_width (geometry w)), w).

(** Handler of [.carousel-next].  Without item, [itemWidth] is [undefined],
    the sum is NaN and the comparison is false. *)
Definition on_next_click (cl : closure) : M unit :=
  run currentScrollLeft <- get_scrollLeft in
  run maxScrollLeft <- max_scrollLeft in
  match cl_itemWidth cl with
  | Some itemWidth =>
      if currentScrollLeft + itemWidth <=? maxScrollLeft
      then animate_scrollLeft (currentScrollLeft + itemWidth)
      else animate_scrollLeft maxScrollLeft
  | None => animate_scrollLeft maxScrollLeft
  end.

(** Handler of [.carousel-prev]. *)
Definition on_prev_click (cl : closure) : M unit :=
  run currentScrollLeft <- get_scrollLeft in
  match cl_itemWidth cl with
  | Some itemWidth =>
      if 0 <=? currentScrollLeft - itemWidth
      then animate_scrollLeft (currentScrollLeft - itemWidth)
      else animate_scrollLeft 0
  | None => animate_scrollLeft 0
  end.

(** [products.find((p) => p.id === productId)] on the elements of the
    array: the first element that passes the test, or [undefined]. *)
Fixpoint find_product (productId : json) (products : list json)
  : result (option json) :=
  match products with
  | [] => Ok None
  | p :: rest =>
      match get_prop p "id" with
      | Throw e => Throw e
      | Ok id =>
          if strict_eq_opt id productId then Ok (Some p)
          else find_product productId rest
      end
  end.

(** [product?.url]. *)
Definition optional_url (product : option json) : result (option json) :=
  match product with
  | None => Ok None
  | Some p => get_prop p "url"
  end.

(** The element a handler runs on, [$(this)]: the item of index [k].  A
    handler only ever runs on an element of the page ([click] below), so the
    [None] branch of the two item handlers is never taken. *)
Definition this_item (k : nat) : M (option item) :=
  fun w => (Ok (c ← dom w; items c !! k), w).

Definition item_error : string := "Product URL not available for product ID:".

(** Handler of [.carousel-item], run on the item of index [k]. *)
Definition on_item_click (cl : closure) (k : nat) : M unit :=
  run this <- this_item k in
  match this with
  | None => ret tt
  | Some it =>
      let productId := data_id it in
      run products <- lift (as_array (cl_products cl)) in
      run product <- lift (find_product productId products) in
      run url <- lift (optional_url product) in
      match url with
      | Some u =>
          if truthy u then window_open u "_blank"
          else console_error item_error productId
      | None => console_error item_error productId
      end
  end.

(** [favorites.filter((id) => id !== productId)]. *)
Definition without (productId : json) (favorites : list json) : list json :=
  List.filter (fun id => negb (strict_eq id productId)) favorites.

(** [JSON.parse(localStorage.getItem(favoritesKey)) || []]. *)
Definition read_favorites : M json :=
  run stored <- getItem favoritesKey in
  run parsed <- lift (JSON_parse stored) in
  ret (if truthy parsed then parsed else JArr []).

(** Handler of [.carousel-fav], run on the button of the item of index
    [k]. *)
Definition on_fav_click (k : nat) : M unit :=
  run _ <- stopPropagation in
  run this <- this_item k in
  match this with
  | None => ret tt
  | Some it =>
      let productId := data_id it in
      let isFavorited := negb (favorited it) in
      run _ <- update_carousel
                 (with_items (fun its => <[k := Item productId isFavorited]> its)) in
      run favorites <- read_favorites in
      run favorites <-
        (if isFavorited
         then run l <- lift (as_array favorites) in ret (JArr (l ++ [productId]))
         else run l <- lift (as_array favorites) in ret (JArr (without productId l))) in
      setItem favoritesKey (JSON_stringify favorites)
  end.

(** [$(`.carousel-item[data-id="${id}"] .carousel-fav`).addClass("favorited")]:
    every item whose attribute is the text of [id] gets the class.  On the
    identifiers of the domain described at [attr_data], two attribute texts
    are the same exactly when the identifiers are. *)
Definition mark (id : json) (it : item) : item :=
  if strict_eq id (data_id it) then Item (data_id it) true else it.

Definition addClass_favorited (id : json) : M unit :=
  update_carousel (with_items (map (mark id))).

Fixpoint forEach (f : json -> M unit) (l : list json) : M unit :=
  match l with
  | [] => ret tt
  | x :: rest => run _ <- f x in forEach f rest
  end.

(** The four [.on("click", ...)] calls: from now on the handlers are
    attached, with [products] and [itemWidth] captured. *)
Definition bind_handlers (cl : closure) : M unit :=
  update_carousel (fun c => Carousel (items c) (scrollLeft c) (Some cl)).

Definition setEvents (products : json) : M unit :=
  run itemWidth <- items_outerWidth in
  run _ <- bind_handlers (Closure products itemWidth) in
  run favorites <- read_favorites in
  run ids <- lift (as_array favorites) in
  forEach addClass_favorited ids.

Definition init : M unit :=
  run stored <- getItem localStorageKey in
  run products <- lift (JSON_parse stored) in
  run products <-
    (if negb (truthy products)
     then run fetched <- fetchProducts in
          run _ <- setItem localStorageKey (JSON_stringify fetched) in
          ret fetched
     else ret products) in
  run _ <- buildHTML products in
  run _ <- buildCSS in
  setEvents products.

(** ** Clicks *)

(** The elements of the carousel that carry a handler. *)
Inductive node : Type :=
| NextButton
| PrevButton
| ItemNode (k : nat)
| FavButton (k : nat).

Definition node_exists (n : node) (c : carousel) : bool :=
  match n with
  | NextButton | PrevButton => true
  | ItemNode k | FavButton k => bool_decide (k < length (items c))%nat
  end.

Definition listener (cl : closure) (n : node) : M unit :=
  match n with
  | NextButton => on_next_click cl
  | PrevButton => on_prev_click cl
  | ItemNode k => on_item_click cl k
  | FavButton k => on_fav_click k
  end.

(** The elements a click visits, target first: the favourite button lies
    inside its item; the ancestors above carry no handler. *)
Definition propagation_path (target : node) : list node :=
  match target with
  | FavButton k => [FavButton k; ItemNode k]
  | n => [n]
  end.

(** An exception that leaves a handler is reported by the browser; it does
    not undo what the handler did before, nor the flag of the event. *)
Definition report (r : result unit) (w : world) : world :=
  match r with
  | Ok _ => w
  | Throw e =>
      World (storage w) (network w) (requests w) (dom w) (styles w)
            (geometry w) (opened w) (console w) (uncaught w ++ [e])
            (event_stopped w)
  end.

(** The handlers run along the path until one has stopped the propagation.
    The result lists the elements whose handler ran. *)
Fixpoint bubble (cl : closure) (path : list node) (w : world)
  : list node * world :=
  match path with
  | [] => ([], w)
  | n :: up =>
      let '(r, w1) := listener cl n w in
      let w2 := report r w1 in
      if event_stopped w2 then ([n], w2)
      else let '(ran, w3) := bubble cl up w2 in (n :: ran, w3)
  end.

(** A click of the user on [target]. *)
Definition click (target : node) (w : world) : list node * world :=
  match dom w with
  | Some c =>
      match handlers c with
      | Some cl =>
          if node_exists target c
          then bubble cl (propagation_path target) (set_stopped false w)
          else ([], w)
      | None => ([], w)
      end
  | None => ([], w)
  end.

Definition after_click (target : node) (w : world) : world :=
  snd (click target w).

Definition after_clicks (targets : list node) (w : world) : world :=
  fold_left (fun w t => after_click t w) targets w.

(** * Vocabulary of the statements *)

(** ** States *)

(** The part of [init] that follows the choice of the product list. *)
Definition start (products : json) : M unit :=
  run _ <- buildHTML products in
  run _ <- buildCSS in
  setEvents products.

(** A page refresh: the document is new, the storage, the server and the
    logs of the observer stay. *)
Definition reload (w : world) : world :=
  World (storage w) (network w) (requests w) None 0 (geometry w)
        (opened w) (console w) (uncaught w) false.

(** The states the script can be in: a page was loaded, [init] ran on it to
    its end or to an exception, and the user clicked any number of times. *)
Inductive reachable : world -> Prop :=
| reach_load (w0 : world) : dom w0 = None -> reachable (snd (init w0))
| reach_click (w : world) (t : node) :
    reachable w -> reachable (after_click t w).

(** A handler is attached to [n] and [n] is on the page. *)
Definition live (n : node) (w : world) : bool :=
  match dom w with
  | Some c =>
      match handlers c with
      | Some _ => node_exists n c
      | None => false
      end
  | None => false
  end.

(** The world after a request that the server answered: the answer is
    consumed and the request is logged. *)
Definition requested (rest : list fetch_result) (w : world) : world :=
  World (storage w) rest (requests w ++ [productAPI]) (dom w) (styles w)
        (geometry w) (opened w) (console w) (uncaught w) (event_stopped w).

(** What [items_outerWidth] returns on a page that shows [its]. *)
Definition measured_width (its : list item) (w : world) : option Z :=
  match its with
  | [] => None
  | _ :: _ => Some (item_outer_width (geometry w))
  end.

(** The world after [start]: the items [its] are on the page, scrolled to
    the left, one more style element is in the head, and the handlers are
    attached. *)
Definition started (products : json) (its : list item) (w : world) : world :=
  World (storage w) (network w) (requests w)
        (Some (Carousel its 0 (Some (Closure products (measured_width its w)))))
        (S (styles w)) (geometry w) (opened w) (console w) (uncaught w)
        (event_stopped w).

(** ** Products *)

Definition non_null (p : json) : Prop := p <> JNull.






(** ** Favourites *)

(** The array that [read_favorites] followed by an array method works on:
    the parsed text when it is an array, the empty array when the key is
    missing or holds a falsy value, and nothing when the read throws. *)
Definition stored_favorites (w : world) : option (list json) :=
  match JSON_parse (storage w !! favoritesKey) with
  | Ok v =>
      if truthy v then
        match v with
        | JArr l => Some l
        | _ => None
        end
      else Some []
  | Throw _ => None
  end.

(** [id ∈ FavoriteSet], with the equality of the script. *)
Definition member (id : json) (favorites : list json) : bool :=
  existsb (fun x => strict_eq x id) favorites.


(** An item after [toggleClass("favorited")] on its button. *)
Definition toggled (it : item) : item :=
  Item (data_id it) (negb (favorited it)).

(** The array that the favourite handler writes back after a click on the
    button of [it]. *)
Definition toggled_favorites (it : item) (favs : list json) : list json :=
  if negb (favorited it) then favs ++ [data_id it]
  else without (data_id it) favs.

(** An item after the restore pass over [ids]. *)
Definition marks (ids : list json) (it : item) : item :=
  fold_left (fun it id => mark id it) ids it.

(** ** Scrolling *)

(** The scroll offset of the track container. *)
Definition offset (w : world) : Z := from_option scrollLeft 0 (dom w).


(** The offset that the next handler scrolls to. *)
Definition next_target (cl : closure) (w : world) (c : carousel) : Z :=
  let maxScrollLeft :=
    track_scroll_width (geometry w) - container_width (geometry w) in
  match cl_itemWidth cl with
  | Some itemWidth =>
      if scrollLeft c + itemWidth <=? maxScrollLeft
      then scrollLeft c + itemWidth else maxScrollLeft
  | None => maxScrollLeft
  end.

(** The offset that the previous handler scrolls to. *)
Definition prev_target (cl : closure) (c : carousel) : Z :=
  match cl_itemWidth cl with
  | Some itemWidth =>
      if 0 <=? scrollLeft c - itemWidth
      then scrollLeft c - itemWidth else 0
  | None => 0
  end.

(** ** Sample pages *)

(** The number of an integer. *)
Definition num (z : Z) : json := JNum (Qc_of_Z z).

(** A record of the feed, priced 199.99. *)
Definition sample_product (id : Z) (url : string) : json :=
  JObj [("id", num id); ("name", JStr "Shirt"); ("img", JStr "shirt.jpg");
        ("price", JNum (Q2Qc (QArith_base.Qmake 19999 100))); ("url", JStr url)].

(** Four products; the second carries an empty URL. *)
Definition sample_feed : list json :=
  [sample_product 1 "https://shop.example/1";
   sample_product 2 "";
   sample_product 3 "https://shop.example/3";
   sample_product 4 "https://shop.example/4"].

(** A freshly loaded page: nothing stored, nothing rendered, and a layout
    in which an item is 100 wide, the track 400 (four items) and its
    container 200 (two items visible). *)
Definition blank_page (answers : list fetch_result) : world :=
  World ∅ answers [] None 0 (Layout 100 400 200) [] [] [] false.

Definition with_cache (t : text) (w : world) : world :=
  set_storage (<[localStorageKey := t]> (storage w)) w.

(** The page after a first visit: the sample feed was fetched and
    rendered. *)
Definition loaded_page : world :=
  snd (init (blank_page [Response true (Json (JArr sample_feed))])).

(** The page of the corrupt-cache scenario: the cache key holds the text
    [{not valid json], and the server is ready to answer. *)
Definition corrupt_page : world :=
  with_cache (NotJson "{not valid json")
             (blank_page [Response true (Json (JArr sample_feed))]).

(** A feed in which two products share the identifier 7. *)
Definition twin_feed : list json :=
  [sample_product 7 "https://shop.example/7";
   sample_product 7 "https://shop.example/7"].

Definition twin_page : world :=
  snd (init (blank_page [Response true (Json (JArr twin_feed))])).

(** ** Outcomes of an initialization *)

(** The exception that [fetchProducts] ends with on the pending answers, if
    any: the rejection of [fetch], the error thrown on a response that is
    not OK, or the rejection of [response.json()]. *)
Definition answer_error (answers : list fetch_result) : option exn :=
  match answers with
  | Response true (Json _) :: _ => None
  | Response true (NotJson _) :: _ => Some SyntaxError
  | Response false _ :: _ => Some (Error "Failed to fetch products.")
  | _ => Some NetworkError
  end.

Definition is_null (v : json) : bool :=
  match v with
  | JNull => true
  | _ => false
  end.

(** The values that [buildHTML] can render: the arrays without [null]. *)
Definition renderable (v : json) : bool :=
  match v with
  | JArr ps => forallb (fun p => negb (is_null p)) ps
  | _ => false
  end.

(** [product.id], on a product that is not [null]. *)
Definition field_id (p : json) : option json :=
  match get_prop p "id" with
  | Ok v => v
  | Throw _ => None
  end.


(** The exception that reading the stored favourites as an array ends
    with, if any: the parse error of an unparseable text, or the missing
    array method of a truthy value that is not an array. *)
Definition favorites_error (w : world) : option exn :=
  match JSON_parse (storage w !! favoritesKey) with
  | Throw e => Some e
  | Ok v =>
      if truthy v then
        match v with
        | JArr _ => None
        | _ => Some TypeError
        end
      else None
  end.

(** The page [w] with the text [t] under the favourites key. *)
Definition with_favorites (t : text) (w : world) : world :=
  set_storage (<[favoritesKey := t]> (storage w)) w.

(** The identifier of the item of index [k]. *)
Definition id_at (c : carousel) (k : nat) : json :=
  from_option data_id JNull (items c !! k).

(** The item of index [j] on the page, if any. *)
Definition item_at (w : world) (j : nat) : option item :=
  c ← dom w; items c !! j.

(** The carousel of [loaded_page]. *)
Definition loaded_carousel : carousel :=
  Carousel [Item (num 1) false; Item (num 2) false; Item (num 3) false;
            Item (num 4) false] 0
           (Some (Closure (JArr sample_feed) (Some 100))).

(** ** Visits *)

(** What a visitor does: a click, or a page refresh, which runs the script
    again on a new document. *)
Inductive action : Type :=
| Click (t : node)
| Refresh.

Definition act (a : action) (w : world) : world :=
  match a with
  | Click t => after_click t w
  | Refresh => snd (init (reload w))
  end.

Definition browse (actions : list action) (w : world) : world :=
  fold_left (fun w a => act a w) actions w.

(** * Properties *)

(** ** Values *)

Lemma strict_eq_eq (a b : json) : strict_eq a b = true -> a = b.
Proof.
  destruct a, b; simpl; try discriminate; intros H.
  - reflexivity.
  - apply Bool.eqb_prop in H. congruence.
  - apply Qc_eq_bool_correct in H. congruence.
  - apply String.eqb_eq in H. congruence.
Qed.

Lemma strict_eq_refl (a : json) : primitive a = true -> strict_eq a a = true.
Proof.
  destruct a; simpl; try discriminate; intros _.
  - reflexivity.
  - apply Bool.eqb_reflx.
  - unfold Qc_eq_bool. now destruct (Qcanon.Qc_eq_dec q q).
  - apply String.eqb_refl.
Qed.

Lemma strict_eq_primitive (a b : json) :
  primitive b = true -> (strict_eq a b = true <-> a = b).
Proof.
  intros Hb. split.
  - apply strict_eq_eq.
  - intros ->. now apply strict_eq_refl.
Qed.

Lemma truthy_array (l : list json) : truthy (JArr l) = true.
Proof. reflexivity. Qed.

(** ** The stored favourites, as the handlers read them *)

Lemma read_favorites_array (w : world) (favs : list json) :
  stored_favorites w = Some favs ->
  bind read_favorites (fun v => lift (as_array v)) w = (Ok favs, w).
Proof.
  unfold stored_favorites, read_favorites, bind, getItem, lift, ret.
  destruct (JSON_parse (storage w !! favoritesKey)) as [v|e]; [|discriminate].
  destruct (truthy v) eqn:Ht.
  - destruct v; try discriminate. intros [= ->]. reflexivity.
  - intros [= <-]. reflexivity.
Qed.

Lemma stored_favorites_array (w : world) (favs : list json) :
  storage w !! favoritesKey = Some (Json (JArr favs)) ->
  stored_favorites w = Some favs.
Proof. unfold stored_favorites. intros ->. reflexivity. Qed.

Lemma stored_favorites_missing (w : world) :
  storage w !! favoritesKey = None -> stored_favorites w = Some [].
Proof. unfold stored_favorites. intros ->. reflexivity. Qed.



(** ** What one click does *)

Lemma click_next (w : world) (c : carousel) (cl : closure) :
  dom w = Some c -> handlers c = Some cl ->
  click NextButton w =
    ([NextButton],
     set_dom (Some (Carousel (items c) (next_target cl w c) (Some cl)))
             (set_stopped false w)).
Proof.
  intros Hd Hh. unfold click. rewrite Hd, Hh. simpl.
  unfold on_next_click, next_target, bind, get_scrollLeft, max_scrollLeft.
  simpl. rewrite Hd. simpl.
  destruct (cl_itemWidth cl) as [iw|]; [destruct (_ <=? _)|];
    unfold animate_scrollLeft, update_carousel; simpl; rewrite Hd; simpl;
    rewrite Hh; reflexivity.
Qed.

Lemma click_prev (w : world) (c : carousel) (cl : closure) :
  dom w = Some c -> handlers c = Some cl ->
  click PrevButton w =
    ([PrevButton],
     set_dom (Some (Carousel (items c) (prev_target cl c) (Some cl)))
             (set_stopped false w)).
Proof.
  intros Hd Hh. unfold click. rewrite Hd, Hh. simpl.
  unfold on_prev_click, prev_target, bind, get_scrollLeft.
  simpl. rewrite Hd. simpl.
  destruct (cl_itemWidth cl) as [iw|]; [destruct (_ <=? _)|];
    unfold animate_scrollLeft, update_carousel; simpl; rewrite Hd; simpl;
    rewrite Hh; reflexivity.
Qed.

Lemma node_exists_lookup (c : carousel) (k : nat) (it : item) :
  items c !! k = Some it ->
  node_exists (ItemNode k) c = true /\ node_exists (FavButton k) c = true.
Proof.
  intros H. apply lookup_lt_Some in H. simpl.
  split; apply bool_decide_eq_true; exact H.
Qed.

Lemma click_fav (w : world) (c : carousel) (cl : closure) (k : nat)
      (it : item) (favs : list json) :
  dom w = Some c -> handlers c = Some cl -> items c !! k = Some it ->
  stored_favorites w = Some favs ->
  click (FavButton k) w =
    ([FavButton k],
     World (<[favoritesKey := Json (JArr (toggled_favorites it favs))]>
              (storage w))
           (network w) (requests w)
           (Some (Carousel (<[k := toggled it]> (items c)) (scrollLeft c)
                           (Some cl)))
           (styles w) (geometry w) (opened w) (console w) (uncaught w) true).
Proof.
  intros Hd Hh Hk Hf. unfold click. rewrite Hd, Hh.
  destruct (node_exists_lookup c k it Hk) as [_ ->]. simpl.
  unfold on_fav_click, bind at 1 2. simpl. rewrite Hd. simpl. rewrite Hk.
  unfold bind at 1. simpl. rewrite Hd. simpl.
  pose proof (read_favorites_array
    (set_dom (Some (with_items (fun its => <[k := toggled it]> its) c))
             (set_stopped true w)) favs Hf) as Hr.
  unfold toggled_favorites, toggled.
  unfold bind in Hr |- *. unfold set_dom, set_stopped, with_items in Hr |- *.
  simpl in Hr |- *.
  destruct (read_favorites _) as [[v|e] w'] eqn:Hrf.
  - unfold lift in Hr. injection Hr as Hv Hw. subst w'.
    unfold toggled. destruct it as [i []]; simpl; unfold lift; rewrite Hv;
      simpl; rewrite Hh; reflexivity.
  - discriminate.
Qed.

Lemma after_click_fav (w : world) (c : carousel) (cl : closure) (k : nat)
      (it : item) (favs : list json) :
  dom w = Some c -> handlers c = Some cl -> items c !! k = Some it ->
  stored_favorites w = Some favs ->
  after_click (FavButton k) w =
    World (<[favoritesKey := Json (JArr (toggled_favorites it favs))]>
             (storage w))
          (network w) (requests w)
          (Some (Carousel (<[k := toggled it]> (items c)) (scrollLeft c)
                          (Some cl)))
          (styles w) (geometry w) (opened w) (console w) (uncaught w) true.
Proof.
  intros Hd Hh Hk Hf. unfold after_click.
  now rewrite (click_fav w c cl k it favs Hd Hh Hk Hf).
Qed.

(** The item handler touches nothing but the two logs. *)
Lemma on_item_click_frame (cl : closure) (k : nat) (w : world) :
  let w' := snd (on_item_click cl k w) in
  storage w' = storage w /\ network w' = network w /\
  requests w' = requests w /\ dom w' = dom w /\ styles w' = styles w /\
  geometry w' = geometry w /\ uncaught w' = uncaught w /\
  event_stopped w' = event_stopped w.
Proof.
  unfold on_item_click, bind, this_item, lift. simpl.
  destruct (dom w ≫= _) as [it|]; simpl; [|tauto].
  destruct (as_array (cl_products cl)) as [ps|e]; simpl; [|tauto].
  destruct (find_product (data_id it) ps) as [p|e]; simpl; [|tauto].
  destruct (optional_url p) as [[u|]|e]; simpl; [|tauto|tauto].
  destruct (truthy u); simpl; tauto.
Qed.

(** The favourite handler stops the propagation whatever happens next, and
    writes to neither log. *)
Lemma on_fav_click_frame (k : nat) (w : world) :
  let w' := snd (on_fav_click k w) in
  event_stopped w' = true /\ opened w' = opened w /\ console w' = console w.
Proof.
  unfold on_fav_click, bind, stopPropagation, this_item. simpl.
  destruct (dom w ≫= _) as [it|]; simpl; [|tauto].
  unfold read_favorites, bind, getItem, lift. simpl.
  destruct (JSON_parse _) as [v|e]; simpl; [|tauto].
  destruct (negb (favorited it)); unfold ret;
    destruct (as_array _) as [l|e]; simpl; tauto.
Qed.

(** Reporting an exception changes the list of uncaught exceptions only;
    the equations below are collected in the rewrite base [frame]. *)
Lemma report_storage (r : result unit) (w : world) :
  storage (report r w) = storage w.
Proof. now destruct r. Qed.

Lemma report_network (r : result unit) (w : world) :
  network (report r w) = network w.
Proof. now destruct r. Qed.

Lemma report_requests (r : result unit) (w : world) :
  requests (report r w) = requests w.
Proof. now destruct r. Qed.

Lemma report_dom (r : result unit) (w : world) :
  dom (report r w) = dom w.
Proof. now destruct r. Qed.

Lemma report_styles (r : result unit) (w : world) :
  styles (report r w) = styles w.
Proof. now destruct r. Qed.

Lemma report_geometry (r : result unit) (w : world) :
  geometry (report r w) = geometry w.
Proof. now destruct r. Qed.

Lemma report_opened (r : result unit) (w : world) :
  opened (report r w) = opened w.
Proof. now destruct r. Qed.

Lemma report_console (r : result unit) (w : world) :
  console (report r w) = console w.
Proof. now destruct r. Qed.

Lemma report_event_stopped (r : result unit) (w : world) :
  event_stopped (report r w) = event_stopped w.
Proof. now destruct r. Qed.

Create Rewrite HintDb frame.
#[global] Hint Rewrite report_storage report_network report_requests report_dom
  report_styles report_geometry report_opened report_console
  report_event_stopped : frame.

(** ** Records and identifiers *)






(** ** The restore pass *)



Lemma map_marks_nil (its : list item) : map (marks []) its = its.
Proof. induction its; simpl; congruence. Qed.

Lemma forEach_addClass (ids : list json) (w : world) :
  forEach addClass_favorited ids w =
    (Ok tt, set_dom (option_map (with_items (map (marks ids))) (dom w)) w).
Proof.
  revert w. induction ids as [|id ids IH]; intros w; simpl.
  - unfold ret. f_equal. destruct w as [? ? ? [c|] ? ? ? ? ? ?]; simpl.
    + unfold set_dom, with_items, marks. simpl. do 2 f_equal.
      destruct c as [its s h]. simpl. f_equal. induction its; simpl; congruence.
    + reflexivity.
  - unfold bind. unfold addClass_favorited at 1. unfold update_carousel.
    rewrite IH. f_equal. unfold set_dom. simpl. f_equal.
    destruct (dom w) as [c|]; simpl; [|reflexivity].
    unfold with_items. simpl. do 2 f_equal. rewrite map_map. reflexivity.
Qed.

(** ** What an initialization does *)

(** [start] either stops in [buildHTML], before anything is rendered, or
    renders, attaches the handlers and then runs the restore pass, which
    fails when the stored favourites cannot be read as an array. *)
Lemma start_cases (products : json) (w : world) :
  (exists e, start products w = (Throw e, w) /\
     forall ps, products = JArr ps -> ~ Forall non_null ps) \/
  (exists ps its, products = JArr ps /\ render_items ps = Ok its /\
     match stored_favorites w with
     | Some favs =>
         start products w = (Ok tt, started products (map (marks favs) its) w)
     | None => exists e, start products w = (Throw e, started products its w)
     end).
Proof.
  unfold start, bind, buildHTML, bind, lift.
  destruct products as [| | | |ps|]; simpl;
    try (left; eexists; split; [reflexivity|discriminate]).
  destruct (render_items ps) as [its|e] eqn:Hr; simpl.
  - right. exists ps, its. split; [reflexivity|]. split; [exact Hr|].
    unfold setEvents, bind, items_outerWidth, bind_handlers, update_carousel.
    simpl. unfold stored_favorites, read_favorites, bind, getItem, lift, ret.
    simpl. destruct (JSON_parse (storage w !! favoritesKey)) as [v|e]; simpl.
    + destruct (truthy v) eqn:Ht.
      * destruct v; simpl; try (eexists; unfold started, measured_width;
          destruct its; reflexivity).
        rewrite forEach_addClass. unfold started, measured_width, set_dom.
        simpl. destruct its; reflexivity.
      * simpl. rewrite map_marks_nil.
        unfold ret, started, measured_width, set_dom. simpl.
        destruct its; reflexivity.
    + eexists. unfold started, measured_width. destruct its; reflexivity.
  - left. eexists. split; [reflexivity|]. intros ps' [= <-] Hall.
    clear - Hr Hall. revert Hr. induction Hall as [|p ps Hp Hall IH]; simpl.
    + discriminate.
    + destruct p; try (now destruct Hp); simpl;
        destruct (render_items ps); try discriminate; intros; now apply IH.
Qed.

Lemma start_frame (products : json) (w : world) :
  let w' := snd (start products w) in
  storage w' = storage w /\ network w' = network w /\
  requests w' = requests w /\ opened w' = opened w /\
  console w' = console w /\ uncaught w' = uncaught w.
Proof.
  destruct (start_cases products w) as [(e & -> & _)|(ps & its & _ & _ & H)];
    simpl; [tauto|].
  destruct (stored_favorites w) as [favs|]; [|destruct H as [e H]];
    rewrite H; simpl; tauto.
Qed.

Lemma init_cached (w : world) (v : json) :
  JSON_parse (storage w !! localStorageKey) = Ok v -> truthy v = true ->
  init w = start v w.
Proof.
  intros Hs Ht. unfold init, start, bind at 1 2 3, getItem, lift. simpl.
  rewrite Hs. simpl. rewrite Ht. reflexivity.
Qed.

Lemma init_fetched (w : world) (v fetched : json)
      (rest : list fetch_result) :
  JSON_parse (storage w !! localStorageKey) = Ok v -> truthy v = false ->
  network w = Response true (Json fetched) :: rest ->
  init w =
    start fetched
      (set_storage (<[localStorageKey := Json fetched]> (storage w))
                   (requested rest w)).
Proof.
  intros Hs Ht Hn. unfold init, start, bind at 1 2 3, getItem, lift. simpl.
  rewrite Hs. simpl. rewrite Ht. simpl.
  unfold fetchProducts, bind at 1 2 3, fetch. rewrite Hn. reflexivity.
Qed.

Lemma fetchProducts_not_ok (w : world) (body : text)
      (rest : list fetch_result) :
  network w = Response false body :: rest ->
  fetchProducts w = (Throw (Error "Failed to fetch products."), requested rest w).
Proof.
  intros Hn. unfold fetchProducts, bind, fetch. rewrite Hn. reflexivity.
Qed.

(** ** Initialization: cache, fetch, errors *)

(** C1. Initialization is cache-first and caches once.  When the stored
    product cache parses to a product sequence, that sequence is what is
    rendered and bound, and no request is made.  When the cache key is
    missing and the server answers with a sequence, the request is made,
    the whole sequence is written to storage, and only then rendering
    starts; a second initialization, on the same page or after a refresh,
    then makes no request and uses the stored sequence, so that the two
    initializations make exactly one request. *)
Theorem init_cache_first (u w : world) (cache ps : list json)
        (rest : list fetch_result) :
  storage u !! localStorageKey = Some (Json (JArr cache)) ->
  storage w !! localStorageKey = None ->
  network w = Response true (Json (JArr ps)) :: rest ->
  let w1 := snd (init w) in
  (init u = start (JArr cache) u /\ requests (snd (init u)) = requests u) /\
  init w =
    start (JArr ps)
      (set_storage (<[localStorageKey := JSON_stringify (JArr ps)]> (storage w))
                   (requested rest w)) /\
  storage w1 !! localStorageKey = Some (Json (JArr ps)) /\
  (init w1 = start (JArr ps) w1 /\
   requests (snd (init w1)) = (requests w ++ [productAPI])%list) /\
  (init (reload w1) = start (JArr ps) (reload w1) /\
   requests (snd (init (reload w1))) = (requests w ++ [productAPI])%list).
Proof.
  intros Hu Hw Hn w1.
  assert (Hiu : init u = start (JArr cache) u).
  { apply init_cached; [now rewrite Hu|reflexivity]. }
  assert (Hiw : init w = start (JArr ps)
            (set_storage (<[localStorageKey := Json (JArr ps)]> (storage w))
                         (requested rest w))).
  { apply init_fetched with (v := JNull); [now rewrite Hw|reflexivity|exact Hn]. }
  assert (Hs1 : storage w1 !! localStorageKey = Some (Json (JArr ps)) /\
                requests w1 = (requests w ++ [productAPI])%list).
  { subst w1. rewrite Hiw.
    destruct (start_frame (JArr ps)
      (set_storage (<[localStorageKey := Json (JArr ps)]> (storage w))
                   (requested rest w))) as (-> & _ & -> & _).
    simpl. split; [apply lookup_insert_eq|reflexivity]. }
  destruct Hs1 as [Hs1 Hr1].
  assert (Hagain : forall w', storage w' = storage w1 ->
            requests w' = requests w1 ->
            init w' = start (JArr ps) w' /\
            requests (snd (init w')) = (requests w ++ [productAPI])%list).
  { intros w' Hs Hr.
    assert (Hi : init w' = start (JArr ps) w').
    { apply init_cached; [now rewrite Hs, Hs1|reflexivity]. }
    split; [exact Hi|]. rewrite Hi.
    destruct (start_frame (JArr ps) w') as (_ & _ & -> & _). congruence. }
  repeat split; try apply Hagain; try reflexivity; try assumption.
  rewrite Hiu. apply (start_frame (JArr cache) u).
Qed.

Lemma init_cache_first_witness :
  length (requests (snd (init (with_cache (Json (JArr sample_feed))
                                          (blank_page []))))) = 0%nat /\
  length (requests
            (snd (init (reload (snd (init (blank_page
               [Response true (Json (JArr sample_feed))]))))))) = 1%nat.
Proof.
  destruct (init_cache_first
              (with_cache (Json (JArr sample_feed)) (blank_page []))
              (blank_page [Response true (Json (JArr sample_feed))])
              sample_feed sample_feed [] eq_refl eq_refl eq_refl)
    as ((_ & Hu) & _ & _ & _ & _ & Hw).
  split.
  - rewrite Hu. reflexivity.
  - rewrite Hw. reflexivity.
Defined.

(** C3, as the script has it.  When the stored product cache is not
    parseable, [JSON.parse] throws in the first statement of [init]: the
    initialization ends with a SyntaxError and leaves everything as it was,
    so no request is made and nothing is rendered. *)
Theorem init_corrupt_cache_throws (w : world) (raw : string) :
  storage w !! localStorageKey = Some (NotJson raw) ->
  init w = (Throw SyntaxError, w).
Proof.
  intros Hs. unfold init, bind, getItem, lift. simpl. rewrite Hs. reflexivity.
Qed.

Lemma init_corrupt_cache_throws_witness :
  init corrupt_page = (Throw SyntaxError, corrupt_page).
Proof.
  apply (init_corrupt_cache_throws corrupt_page "{not valid json").
  reflexivity.
Defined.

(** C3 fails as stated: on [corrupt_page] the initialization throws and
    makes no request, although the server would have answered. *)
Lemma corrupt_cache_is_not_refetched :
  fst (init corrupt_page) = Throw SyntaxError /\
  requests (snd (init corrupt_page)) = [] /\
  dom (snd (init corrupt_page)) = None.
Proof. vm_compute. repeat split. Qed.

(** C8. A response that is not OK makes [fetchProducts] throw the error
    [Failed to fetch products.].  An initialization that has to fetch
    (missing cache key) ends with that error: one request was made and is
    not repeated, nothing is written to storage and nothing is rendered. *)
Theorem fetch_error_not_recovered (w : world) (body : text)
        (rest : list fetch_result) :
  network w = Response false body :: rest ->
  storage w !! localStorageKey = None ->
  fetchProducts w =
    (Throw (Error "Failed to fetch products."), requested rest w) /\
  init w = (Throw (Error "Failed to fetch products."), requested rest w) /\
  requests (snd (init w)) = (requests w ++ [productAPI])%list /\
  storage (snd (init w)) = storage w /\
  dom (snd (init w)) = dom w /\
  styles (snd (init w)) = styles w.
Proof.
  intros Hn Hs.
  assert (Hi : init w =
                 (Throw (Error "Failed to fetch products."), requested rest w)).
  { unfold init, bind at 1 2 3, getItem, lift. simpl. rewrite Hs. simpl.
    unfold bind. rewrite (fetchProducts_not_ok w body rest Hn). reflexivity. }
  split; [now apply fetchProducts_not_ok with (body := body)|].
  rewrite Hi. simpl. repeat split.
Qed.

Lemma fetch_error_not_recovered_witness :
  init (blank_page [Response false (NotJson "Not Found")]) =
    (Throw (Error "Failed to fetch products."),
     requested [] (blank_page [Response false (NotJson "Not Found")])).
Proof.
  apply (fetch_error_not_recovered
           (blank_page [Response false (NotJson "Not Found")])
           (NotJson "Not Found") [] eq_refl eq_refl).
Defined.

(** ** Clicks in general *)

Lemma click_not_live (n : node) (w : world) :
  live n w = false -> click n w = ([], w).
Proof.
  unfold live, click. destruct (dom w) as [c|]; [|reflexivity].
  destruct (handlers c); [|reflexivity]. now intros ->.
Qed.

Lemma click_fav_live (k : nat) (w : world) :
  live (FavButton k) w = true ->
  click (FavButton k) w =
    ([FavButton k],
     report (fst (on_fav_click k (set_stopped false w)))
            (snd (on_fav_click k (set_stopped false w)))).
Proof.
  unfold live, click. destruct (dom w) as [c|]; [|discriminate].
  destruct (handlers c) as [cl|]; [|discriminate]. intros ->. simpl.
  destruct (on_fav_click_frame k (set_stopped false w)) as (Hs & _).
  destruct (on_fav_click k (set_stopped false w)) as [r w1]. simpl in *.
  autorewrite with frame in *.
  rewrite Hs. reflexivity.
Qed.

Lemma click_item_live (k : nat) (w : world) :
  live (ItemNode k) w = true ->
  exists cl,
    (exists c, dom w = Some c /\ handlers c = Some cl) /\
    click (ItemNode k) w =
      ([ItemNode k],
       report (fst (on_item_click cl k (set_stopped false w)))
              (snd (on_item_click cl k (set_stopped false w)))).
Proof.
  unfold live, click. destruct (dom w) as [c|]; [|discriminate].
  destruct (handlers c) as [cl|] eqn:Hh; [|discriminate]. intros ->.
  exists cl. split; [eauto|]. simpl.
  destruct (on_item_click_frame cl k (set_stopped false w))
    as (_ & _ & _ & _ & _ & _ & _ & Hs).
  destruct (on_item_click cl k (set_stopped false w)) as [r w1]. simpl in *.
  autorewrite with frame in *.
  rewrite Hs. reflexivity.
Qed.

(** C7. A click on a favourite button runs the favourite handler and no
    other: the click never reaches the handler of the item around the
    button, nothing is opened and nothing is logged. *)
Theorem fav_click_does_not_navigate (k : nat) (w : world) :
  fst (click (FavButton k) w) =
    (if live (FavButton k) w then [FavButton k] else []) /\
  (forall j, ~ In (ItemNode j) (fst (click (FavButton k) w))) /\
  opened (after_click (FavButton k) w) = opened w /\
  console (after_click (FavButton k) w) = console w.
Proof.
  unfold after_click. destruct (live (FavButton k) w) eqn:Hl.
  - rewrite (click_fav_live k w Hl). simpl.
    destruct (on_fav_click_frame k (set_stopped false w)) as (_ & Ho & Hc).
    destruct (on_fav_click k (set_stopped false w)) as [r w1]. simpl in *.
    autorewrite with frame in *.
    repeat split; try assumption.
    intros j [Hj|[]]. discriminate.
  - rewrite (click_not_live _ w Hl). simpl. repeat split. intros j [].
Qed.

Lemma scroll_click_frame (t : node) (w : world) :
  t = NextButton \/ t = PrevButton ->
  let w' := after_click t w in
  storage w' = storage w /\
  option_map items (dom w') = option_map items (dom w) /\
  option_map handlers (dom w') = option_map handlers (dom w) /\
  opened w' = opened w /\ console w' = console w /\
  uncaught w' = uncaught w /\ network w' = network w /\
  requests w' = requests w.
Proof.
  intros Ht w'. subst w'. unfold after_click.
  destruct (live t w) eqn:Hl; [|now rewrite (click_not_live t w Hl)].
  unfold live in Hl. destruct (dom w) as [c|] eqn:Hd; [|discriminate].
  destruct (handlers c) as [cl|] eqn:Hh; [|discriminate].
  destruct Ht as [-> | ->].
  - rewrite (click_next w c cl Hd Hh). simpl. rewrite Hh. tauto.
  - rewrite (click_prev w c cl Hd Hh). simpl. rewrite Hh. tauto.
Qed.

Lemma item_click_frame (k : nat) (w : world) :
  let w' := after_click (ItemNode k) w in
  storage w' = storage w /\ dom w' = dom w /\
  network w' = network w /\ requests w' = requests w.
Proof.
  intros w'. subst w'. unfold after_click.
  destruct (live (ItemNode k) w) eqn:Hl; [|now rewrite (click_not_live _ w Hl)].
  destruct (click_item_live k w Hl) as (cl & _ & ->). simpl.
  destruct (on_item_click_frame cl k (set_stopped false w))
    as (Hs & Hn & Hr & Hd & _).
  destruct (on_item_click cl k (set_stopped false w)) as [r w1]. simpl in *.
  autorewrite with frame in *.
  tauto.
Qed.

(** C10. The clicks that navigate leave the persisted state alone.  A click
    on next or on previous changes at most the scroll offset of the
    carousel; a click on an item changes at most the log of opened windows
    and the diagnostic log.  In each case the whole storage, hence both
    keys, and the favourite class of every item are as before. *)
Theorem navigation_preserves_state (w : world) (k : nat) :
  let next := after_click NextButton w in
  let prev := after_click PrevButton w in
  let item := after_click (ItemNode k) w in
  (storage next = storage w /\
   option_map items (dom next) = option_map items (dom w) /\
   opened next = opened w /\ console next = console w) /\
  (storage prev = storage w /\
   option_map items (dom prev) = option_map items (dom w) /\
   opened prev = opened w /\ console prev = console w) /\
  (storage item = storage w /\ dom item = dom w).
Proof.
  intros next prev item.
  pose proof (scroll_click_frame NextButton w (or_introl eq_refl)) as Hn.
  pose proof (scroll_click_frame PrevButton w (or_intror eq_refl)) as Hp.
  pose proof (item_click_frame k w) as Hi.
  simpl in Hn, Hp, Hi. subst next prev item. tauto.
Qed.

(** ** The states of a running page *)



Lemma on_fav_click_dom (k : nat) (w : world) :
  dom (snd (on_fav_click k w)) =
    match dom w with
    | Some c =>
        match items c !! k with
        | Some it =>
            Some (Carousel (<[k := toggled it]> (items c)) (scrollLeft c)
                           (handlers c))
        | None => Some c
        end
    | None => None
    end.
Proof.
  unfold on_fav_click, bind, stopPropagation, this_item. simpl.
  destruct (dom w) as [c|] eqn:Hd; simpl; [|exact Hd].
  destruct (items c !! k) as [it|]; simpl; [|exact Hd].
  rewrite Hd. simpl.
  unfold read_favorites, bind, getItem, lift. simpl.
  destruct (JSON_parse _) as [v|e]; simpl; [|reflexivity].
  unfold toggled, with_items.
  destruct it as [i []]; simpl; unfold ret;
    destruct (as_array _) as [l|e]; simpl; reflexivity.
Qed.

Lemma insert_toggled_ids (its : list item) (k : nat) (it : item) :
  its !! k = Some it ->
  map data_id (<[k := toggled it]> its) = map data_id its.
Proof.
  intros Hk. change (data_id <$> <[k := toggled it]> its = data_id <$> its).
  rewrite list_fmap_insert. apply list_insert_id.
  rewrite list_lookup_fmap, Hk. reflexivity.
Qed.

(** No click changes which handlers are attached, nor the identifiers of
    the items. *)
Lemma after_click_shape (t : node) (w : world) :
  option_map handlers (dom (after_click t w)) = option_map handlers (dom w) /\
  option_map (fun c => map data_id (items c)) (dom (after_click t w)) =
    option_map (fun c => map data_id (items c)) (dom w).
Proof.
  destruct t as [| |k|k].
  - destruct (scroll_click_frame NextButton w (or_introl eq_refl))
      as (_ & Hi & Hh & _).
    split; [exact Hh|].
    destruct (dom (after_click NextButton w)), (dom w); simpl in *; congruence.
  - destruct (scroll_click_frame PrevButton w (or_intror eq_refl))
      as (_ & Hi & Hh & _).
    split; [exact Hh|].
    destruct (dom (after_click PrevButton w)), (dom w); simpl in *; congruence.
  - destruct (item_click_frame k w) as (_ & -> & _). split; reflexivity.
  - unfold after_click.
    destruct (live (FavButton k) w) eqn:Hl;
      [|rewrite (click_not_live _ w Hl); split; reflexivity].
    rewrite (click_fav_live k w Hl). simpl.
    pose proof (on_fav_click_dom k (set_stopped false w)) as Hd.
    destruct (on_fav_click k (set_stopped false w)) as [r w1]. simpl in *.
    autorewrite with frame in *. rewrite Hd.
    destruct (dom w) as [c|]; [|split; reflexivity].
    destruct (items c !! k) as [it|] eqn:Hk; [|split; reflexivity].
    simpl. split; [reflexivity|]. f_equal. now apply insert_toggled_ids.
Qed.



(** ** Item click *)



(** ** Favourite toggle *)

(** C4. A click on the favourite button of an item with identifier [i],
    when the favourites key holds the sequence [F]: the class of the
    button is flipped, and the key holds, when the handler returns, [F]
    with [i] appended if the item is now favourited, and otherwise [F]
    without the elements equal to [i], the others kept in order. *)
Theorem fav_click_updates_storage (w : world) (c : carousel) (cl : closure)
        (k : nat) (it : item) (F : list json) :
  dom w = Some c -> handlers c = Some cl -> items c !! k = Some it ->
  storage w !! favoritesKey = Some (Json (JArr F)) ->
  let w' := after_click (FavButton k) w in
  let i := data_id it in
  let now_favorited := negb (favorited it) in
  (exists c', dom w' = Some c' /\
     items c' !! k = Some (Item i now_favorited)) /\
  storage w' !! favoritesKey =
    Some (JSON_stringify
            (JArr (if now_favorited then F ++ [i]
                   else List.filter (fun x => negb (strict_eq x i)) F))) /\
  (primitive i = true ->
   forall x, In x (List.filter (fun x => negb (strict_eq x i)) F) <->
             In x F /\ x <> i).
Proof.
  intros Hd Hh Hk HF w' i now_favorited. subst w'. unfold after_click.
  rewrite (click_fav w c cl k it F Hd Hh Hk (stored_favorites_array w F HF)).
  simpl. split; [|split].
  - eexists. split; [reflexivity|]. simpl.
    apply list_lookup_insert_eq. now apply lookup_lt_Some in Hk.
  - rewrite lookup_insert_eq. reflexivity.
  - intros Hp x. rewrite filter_In, Bool.negb_true_iff.
    rewrite <- Bool.not_true_iff_false.
    now rewrite (strict_eq_primitive x i Hp).
Qed.

Lemma fav_click_updates_storage_witness :
  storage (after_click (FavButton 2)
             (set_storage (<[favoritesKey := Json (JArr [num 1])]>
                             (storage loaded_page)) loaded_page))
    !! favoritesKey = Some (Json (JArr [num 1; num 3])).
Proof.
  eapply (fav_click_updates_storage
            (set_storage (<[favoritesKey := Json (JArr [num 1])]>
                            (storage loaded_page)) loaded_page)
            _ _ 2%nat (Item (num 3) false) [num 1]); reflexivity.
Defined.

(** ** Scrolling *)



Section ItemWidth.

(** The handlers have captured the width [W] of an item. *)
Variables (cl : closure) (W : Z).
Hypothesis captured : cl_itemWidth cl = Some W.
Hypothesis width_nonneg : 0 <= W.





End ItemWidth.




(** ** Favourites in sync *)

Lemma member_In (x : json) (l : list json) : member x l = true -> In x l.
Proof.
  unfold member. rewrite existsb_exists. intros (y & Hy & E).
  apply strict_eq_eq in E. now subst y.
Qed.

Lemma In_member (x : json) (l : list json) :
  primitive x = true -> In x l -> member x l = true.
Proof.
  intros Hp Hin. unfold member. rewrite existsb_exists.
  exists x. split; [exact Hin|now apply strict_eq_refl].
Qed.

Lemma without_In (i x : json) (l : list json) :
  In x (without i l) <-> In x l /\ strict_eq x i = false.
Proof. unfold without. now rewrite filter_In, Bool.negb_true_iff. Qed.












(** ** Toggling twice *)

Lemma toggled_toggled (it : item) : toggled (toggled it) = it.
Proof. destruct it as [i b]. unfold toggled. simpl. now rewrite Bool.negb_involutive. Qed.

Lemma twice_toggled_favorites (it : item) (favs : list json) :
  primitive (data_id it) = true ->
  favorited it = member (data_id it) favs ->
  forall x,
    In x (toggled_favorites (toggled it) (toggled_favorites it favs)) <->
    In x favs.
Proof.
  intros Hp Hs x. unfold toggled_favorites, toggled. simpl.
  rewrite Bool.negb_involutive.
  destruct (favorited it); simpl.
  - rewrite in_app_iff, without_In. simpl. split.
    + intros [[Hin _]|[<-|[]]]; [exact Hin|]. now apply member_In.
    + intros Hin. destruct (strict_eq x (data_id it)) eqn:E; [|auto].
      apply strict_eq_eq in E. subst x. auto.
  - rewrite without_In, in_app_iff. simpl. split.
    + intros [[Hin|[<-|[]]] E]; [exact Hin|].
      rewrite (strict_eq_refl _ Hp) in E. discriminate.
    + intros Hin. split; [auto|].
      destruct (strict_eq x (data_id it)) eqn:E; [|reflexivity].
      apply strict_eq_eq in E. subst x.
      rewrite (In_member _ _ Hp Hin) in Hs. discriminate.
Qed.

(** C5, as the script has it.  For an item with a primitive identifier
    whose class agrees with the stored favourites, two clicks in a row on
    its favourite button bring every item back to the class it had and
    leave the stored favourites with the same members. *)
Theorem double_toggle_round_trip (w : world) (c : carousel) (cl : closure)
        (k : nat) (it : item) (favs : list json) :
  dom w = Some c -> handlers c = Some cl -> items c !! k = Some it ->
  stored_favorites w = Some favs ->
  primitive (data_id it) = true ->
  favorited it = member (data_id it) favs ->
  let w2 := after_click (FavButton k) (after_click (FavButton k) w) in
  exists c2 favs2,
    dom w2 = Some c2 /\ items c2 = items c /\
    stored_favorites w2 = Some favs2 /\
    forall x, In x favs2 <-> In x favs.
Proof.
  intros Hd Hh Hk Hf Hp Hs w2. subst w2.
  rewrite (after_click_fav w c cl k it favs Hd Hh Hk Hf).
  erewrite (after_click_fav _ _ cl k (toggled it) (toggled_favorites it favs));
    [|reflexivity|reflexivity| |].
  - do 2 eexists. split; [reflexivity|]. simpl. split; [|split].
    + rewrite list_insert_insert_eq, toggled_toggled.
      now apply list_insert_id.
    + apply stored_favorites_array. simpl. apply lookup_insert_eq.
    + now apply twice_toggled_favorites.
  - simpl. apply list_lookup_insert_eq. now apply lookup_lt_Some in Hk.
  - apply stored_favorites_array. simpl. apply lookup_insert_eq.
Qed.

Lemma double_toggle_round_trip_witness :
  exists c2 favs2,
    dom (after_click (FavButton 1) (after_click (FavButton 1) loaded_page)) =
      Some c2 /\
    Some (items c2) = option_map items (dom loaded_page) /\
    stored_favorites
      (after_click (FavButton 1) (after_click (FavButton 1) loaded_page)) =
      Some favs2 /\
    forall x, In x favs2 <-> In x [].
Proof.
  destruct (double_toggle_round_trip loaded_page
              (Carousel [Item (num 1) false; Item (num 2) false;
                         Item (num 3) false; Item (num 4) false] 0
                        (Some (Closure (JArr sample_feed) (Some 100))))
              (Closure (JArr sample_feed) (Some 100)) 1%nat
              (Item (num 2) false) []
              eq_refl eq_refl eq_refl eq_refl eq_refl eq_refl)
    as (c2 & favs2 & Hd & Hi & Hf & Hm).
  exists c2, favs2. rewrite Hd, Hi, Hf. repeat split; apply Hm.
Defined.

(** C5 fails as stated: on the twin feed, after one click on the favourite
    button of the first item, the identifier 7 is stored and the second
    item is without the class; two clicks on the button of the second item
    then leave the store without 7. *)
Lemma twin_double_toggle_forgets :
  let w := after_click (FavButton 0) twin_page in
  let w2 := after_click (FavButton 1) (after_click (FavButton 1) w) in
  reachable w /\
  option_map items (dom w) =
    Some [Item (num 7) true; Item (num 7) false] /\
  stored_favorites w = Some [num 7] /\
  stored_favorites (after_click (FavButton 1) w) = Some [num 7; num 7] /\
  stored_favorites w2 = Some [] /\
  option_map items (dom w2) = option_map items (dom w).
Proof.
  repeat split.
  apply reach_click, reach_load. reflexivity.
Qed.

(** * Further properties of the script *)

(** ** Rendering *)

Lemma render_item_non_null (p : json) :
  is_null p = false -> render_item p = Ok (Item (attr_data (field_id p)) false).
Proof. destruct p; simpl; intros H; try reflexivity. discriminate. Qed.


Lemma render_items_null (ps : list json) :
  forallb (fun p => negb (is_null p)) ps = false ->
  render_items ps = Throw TypeError.
Proof.
  induction ps as [|p ps IH]; simpl; [discriminate|].
  destruct (is_null p) eqn:Hp; simpl.
  - intros _. destruct p; try discriminate. reflexivity.
  - intros H. now rewrite (render_item_non_null p Hp), (IH H).
Qed.


Lemma start_unrenderable (v : json) (w : world) :
  renderable v = false -> start v w = (Throw TypeError, w).
Proof.
  unfold start, bind, buildHTML, bind, lift.
  destruct v as [| | | |ps|]; simpl; try reflexivity.
  intros H. now rewrite (render_items_null ps H).
Qed.

Lemma favorites_error_none (w : world) :
  favorites_error w = None -> exists favs, stored_favorites w = Some favs.
Proof.
  unfold favorites_error, stored_favorites.
  destruct (JSON_parse _) as [v|e]; [|discriminate].
  destruct (truthy v); [|eauto]. destruct v; try discriminate; eauto.
Qed.

Lemma favorites_error_some (w : world) (e : exn) :
  favorites_error w = Some e ->
  stored_favorites w = None /\
  bind read_favorites (fun v => lift (as_array v)) w = (Throw e, w).
Proof.
  unfold favorites_error, stored_favorites, read_favorites, bind, getItem,
    lift, ret.
  destruct (JSON_parse _) as [v|e']; [|now intros [= ->]].
  destruct (truthy v); [|discriminate].
  destruct v; try discriminate; now intros [= <-].
Qed.


(** ** Initialization, case by case *)

Lemma init_parse_error (w : world) (e : exn) :
  JSON_parse (storage w !! localStorageKey) = Throw e ->
  init w = (Throw e, w).
Proof.
  intros Hp. unfold init, bind, getItem, lift. simpl. now rewrite Hp.
Qed.

Lemma init_fetch_failed (w : world) (v : json) (e : exn) :
  JSON_parse (storage w !! localStorageKey) = Ok v -> truthy v = false ->
  answer_error (network w) = Some e ->
  init w = (Throw e, requested (tl (network w)) w).
Proof.
  intros Hp Ht He. unfold init, bind, getItem, lift. simpl.
  rewrite Hp. simpl. rewrite Ht. simpl.
  unfold fetchProducts, bind, fetch, requested.
  destruct (network w) as [|[|[] [fetched|raw]] rest]; simpl in *;
    try discriminate; injection He as <-; reflexivity.
Qed.

Lemma answer_error_none (answers : list fetch_result) :
  answer_error answers = None ->
  exists fetched rest, answers = Response true (Json fetched) :: rest.
Proof.
  destruct answers as [|[|[] [fetched|raw]] rest]; simpl; try discriminate.
  eauto.
Qed.

(** An initialization that finds no usable cache makes exactly one
    request, whatever the answer. *)
Lemma init_requests_once (w : world) (v : json) :
  JSON_parse (storage w !! localStorageKey) = Ok v -> truthy v = false ->
  requests (snd (init w)) = (requests w ++ [productAPI])%list.
Proof.
  intros Hp Ht. destruct (answer_error (network w)) as [e|] eqn:He.
  - now rewrite (init_fetch_failed w v e Hp Ht He).
  - destruct (answer_error_none _ He) as (fetched & rest & Hn).
    rewrite (init_fetched w v fetched rest Hp Ht Hn).
    destruct (start_frame fetched
      (set_storage (<[localStorageKey := Json fetched]> (storage w))
                   (requested rest w))) as (_ & _ & -> & _).
    reflexivity.
Qed.

(** What an initialization can have done to the storage and to the request
    log. *)
Lemma init_storage (w : world) :
  (storage (snd (init w)) = storage w /\
   (requests (snd (init w)) = requests w \/
    requests (snd (init w)) = (requests w ++ [productAPI])%list)) \/
  (exists fetched,
     storage (snd (init w)) = <[localStorageKey := Json fetched]> (storage w) /\
     requests (snd (init w)) = (requests w ++ [productAPI])%list).
Proof.
  destruct (JSON_parse (storage w !! localStorageKey)) as [v|e] eqn:Hp.
  - destruct (truthy v) eqn:Ht.
    + left. rewrite (init_cached w v Hp Ht).
      destruct (start_frame v w) as (-> & _ & -> & _). auto.
    + destruct (answer_error (network w)) as [e|] eqn:He.
      * left. rewrite (init_fetch_failed w v e Hp Ht He). simpl. auto.
      * destruct (answer_error_none _ He) as (fetched & rest & Hn).
        right. exists fetched.
        rewrite (init_fetched w v fetched rest Hp Ht Hn).
        destruct (start_frame fetched
          (set_storage (<[localStorageKey := Json fetched]> (storage w))
                       (requested rest w))) as (-> & _ & -> & _).
        split; reflexivity.
  - left. rewrite (init_parse_error w e Hp). auto.
Qed.

Lemma init_logs (w : world) :
  opened (snd (init w)) = opened w /\ console (snd (init w)) = console w /\
  uncaught (snd (init w)) = uncaught w.
Proof.
  destruct (JSON_parse (storage w !! localStorageKey)) as [v|e] eqn:Hp.
  - destruct (truthy v) eqn:Ht.
    + rewrite (init_cached w v Hp Ht).
      destruct (start_frame v w) as (_ & _ & _ & -> & -> & ->). auto.
    + destruct (answer_error (network w)) as [e|] eqn:He.
      * rewrite (init_fetch_failed w v e Hp Ht He). simpl. auto.
      * destruct (answer_error_none _ He) as (fetched & rest & Hn).
        rewrite (init_fetched w v fetched rest Hp Ht Hn).
        destruct (start_frame fetched
          (set_storage (<[localStorageKey := Json fetched]> (storage w))
                       (requested rest w))) as (_ & _ & _ & -> & -> & ->).
        auto.
  - rewrite (init_parse_error w e Hp). auto.
Qed.

(** X1. A fetch that fails, because the server cannot be reached, because
    the response is not OK or because its body is not JSON, ends the
    initialization with the corresponding exception: one request was made,
    nothing is stored and nothing is rendered.  The failure is not
    remembered: the next initialization requests again. *)
Theorem failed_fetch_is_not_cached (w : world) (e : exn) :
  storage w !! localStorageKey = None ->
  answer_error (network w) = Some e ->
  let w1 := snd (init w) in
  fst (init w) = Throw e /\
  storage w1 = storage w /\ dom w1 = dom w /\ styles w1 = styles w /\
  requests w1 = (requests w ++ [productAPI])%list /\
  requests (snd (init (reload w1))) =
    (requests w ++ [productAPI; productAPI])%list.
Proof.
  intros Hs He w1. subst w1.
  assert (Hp : JSON_parse (storage w !! localStorageKey) = Ok JNull)
    by now rewrite Hs.
  rewrite (init_fetch_failed w JNull e Hp eq_refl He). simpl.
  repeat split.
  rewrite (init_requests_once _ JNull); simpl; [|now rewrite Hs|reflexivity].
  now rewrite <- app_assoc.
Qed.

Lemma failed_fetch_is_not_cached_witness :
  fst (init (blank_page [Unreachable; Response true (NotJson "<html>")])) =
    Throw NetworkError /\
  fst (init (reload (snd (init
    (blank_page [Unreachable; Response true (NotJson "<html>")]))))) =
    Throw SyntaxError.
Proof.
  split.
  - apply (failed_fetch_is_not_cached
             (blank_page [Unreachable; Response true (NotJson "<html>")])
             NetworkError eq_refl eq_refl).
  - apply (failed_fetch_is_not_cached
             (reload (snd (init
                (blank_page [Unreachable; Response true (NotJson "<html>")]))))
             SyntaxError eq_refl eq_refl).
Defined.

(** X2. The answer of the server is written to the cache before it is
    rendered.  An OK answer that is truthy but cannot be rendered (not an
    array, or an array that holds [null]) is therefore stored, the
    initialization ends with a TypeError and nothing is rendered; the next
    initialization takes the stored value, makes no request and ends with
    the same TypeError. *)
Theorem unrenderable_answer_stays_cached (w : world) (v : json)
        (rest : list fetch_result) :
  storage w !! localStorageKey = None ->
  network w = Response true (Json v) :: rest ->
  truthy v = true -> renderable v = false ->
  let w1 := snd (init w) in
  let w2 := snd (init (reload w1)) in
  fst (init w) = Throw TypeError /\
  storage w1 !! localStorageKey = Some (Json v) /\
  dom w1 = dom w /\
  fst (init (reload w1)) = Throw TypeError /\
  dom w2 = None /\
  requests w2 = (requests w ++ [productAPI])%list.
Proof.
  intros Hs Hn Ht Hr w1 w2.
  assert (Hp : JSON_parse (storage w !! localStorageKey) = Ok JNull)
    by now rewrite Hs.
  assert (H1 : init w =
    (Throw TypeError,
     set_storage (<[localStorageKey := Json v]> (storage w))
                 (requested rest w))).
  { rewrite (init_fetched w JNull v rest Hp eq_refl Hn).
    now apply start_unrenderable. }
  assert (H2 : init (reload w1) = (Throw TypeError, reload w1)).
  { rewrite (init_cached (reload w1) v).
    - now apply start_unrenderable.
    - subst w1. rewrite H1. simpl. now rewrite lookup_insert_eq.
    - exact Ht. }
  subst w2. rewrite H2. subst w1. rewrite H1. simpl.
  repeat split. apply lookup_insert_eq.
Qed.

Lemma unrenderable_answer_stays_cached_witness :
  fst (init (reload (snd (init
    (blank_page [Response true (Json (JObj [("error", JStr "busy")]));
                 Response true (Json (JArr sample_feed))]))))) =
    Throw TypeError /\
  network (snd (init (reload (snd (init
    (blank_page [Response true (Json (JObj [("error", JStr "busy")]));
                 Response true (Json (JArr sample_feed))]))))))
    = [Response true (Json (JArr sample_feed))].
Proof.
  split.
  - apply (unrenderable_answer_stays_cached
             (blank_page [Response true (Json (JObj [("error", JStr "busy")]));
                          Response true (Json (JArr sample_feed))])
             (JObj [("error", JStr "busy")])
             [Response true (Json (JArr sample_feed))]
             eq_refl eq_refl eq_refl eq_refl).
  - reflexivity.
Defined.

(** X3. An OK answer that is falsy ([null], [false], [0] or the empty
    string) is written to the cache, and the initialization ends with a
    TypeError.  The stored value does not count as a cache: the next
    initialization requests again. *)
Theorem falsy_answer_is_requested_again (w : world) (v : json)
        (rest : list fetch_result) :
  storage w !! localStorageKey = None ->
  network w = Response true (Json v) :: rest ->
  truthy v = false ->
  let w1 := snd (init w) in
  fst (init w) = Throw TypeError /\
  storage w1 !! localStorageKey = Some (Json v) /\
  dom w1 = dom w /\
  requests (snd (init (reload w1))) =
    (requests w ++ [productAPI; productAPI])%list.
Proof.
  intros Hs Hn Ht w1.
  assert (Hp : JSON_parse (storage w !! localStorageKey) = Ok JNull)
    by now rewrite Hs.
  assert (Hr : renderable v = false) by (destruct v; try reflexivity; discriminate).
  assert (H1 : init w =
    (Throw TypeError,
     set_storage (<[localStorageKey := Json v]> (storage w))
                 (requested rest w))).
  { rewrite (init_fetched w JNull v rest Hp eq_refl Hn).
    now apply start_unrenderable. }
  subst w1. rewrite H1. simpl. repeat split; [apply lookup_insert_eq|].
  rewrite (init_requests_once _ v); simpl;
    [now rewrite <- app_assoc|now rewrite lookup_insert_eq|exact Ht].
Qed.

Lemma falsy_answer_is_requested_again_witness :
  requests (snd (init (reload (snd (init
    (blank_page [Response true (Json JNull);
                 Response true (Json (JArr sample_feed))]))))))
    = [productAPI; productAPI] /\
  fst (init (reload (snd (init
    (blank_page [Response true (Json JNull);
                 Response true (Json (JArr sample_feed))]))))) = Ok tt.
Proof.
  split.
  - apply (falsy_answer_is_requested_again
             (blank_page [Response true (Json JNull);
                          Response true (Json (JArr sample_feed))])
             JNull [Response true (Json (JArr sample_feed))]
             eq_refl eq_refl eq_refl).
  - reflexivity.
Defined.






(** X6. An initialization, however it ends, changes no storage key other
    than the product cache, writes to neither log, and makes at most one
    request. *)
Theorem init_touches_only_the_cache (w : world) (key : string) :
  key <> localStorageKey ->
  let w1 := snd (init w) in
  storage w1 !! key = storage w !! key /\
  opened w1 = opened w /\ console w1 = console w /\
  (requests w1 = requests w \/
   requests w1 = (requests w ++ [productAPI])%list).
Proof.
  intros Hk w1. subst w1.
  destruct (init_logs w) as (Ho & Hc & _).
  destruct (init_storage w) as [(Hs & Hr)|(fetched & Hs & Hr)]; rewrite Hs.
  - auto.
  - rewrite lookup_insert_ne by congruence. auto.
Qed.

Lemma init_touches_only_the_cache_witness :
  storage (snd (init (with_favorites (Json (JArr [num 3]))
                        (blank_page [Response true (Json (JArr sample_feed))]))))
    !! favoritesKey = Some (Json (JArr [num 3])).
Proof.
  apply (init_touches_only_the_cache
           (with_favorites (Json (JArr [num 3]))
              (blank_page [Response true (Json (JArr sample_feed))]))
           favoritesKey).
  discriminate.
Defined.

(** ** The favourite handler in general *)

Lemma click_fav_unreadable (w : world) (c : carousel) (cl : closure)
      (k : nat) (it : item) (e : exn) :
  dom w = Some c -> handlers c = Some cl -> items c !! k = Some it ->
  favorites_error w = Some e ->
  click (FavButton k) w =
    ([FavButton k],
     World (storage w) (network w) (requests w)
           (Some (Carousel (<[k := toggled it]> (items c)) (scrollLeft c)
                           (Some cl)))
           (styles w) (geometry w) (opened w) (console w)
           (uncaught w ++ [e]) true).
Proof.
  intros Hd Hh Hk He. unfold click. rewrite Hd, Hh.
  destruct (node_exists_lookup c k it Hk) as [_ ->]. simpl.
  unfold on_fav_click, bind at 1 2. simpl. rewrite Hd. simpl. rewrite Hk.
  unfold bind at 1. simpl. rewrite Hd. simpl.
  destruct (favorites_error_some
    (set_dom (Some (with_items (fun its => <[k := toggled it]> its) c))
             (set_stopped true w)) e He) as [_ Hr].
  unfold bind in Hr |- *. unfold set_dom, set_stopped, with_items in Hr |- *.
  simpl in Hr |- *.
  destruct (read_favorites _) as [[v|e'] w'] eqn:Hrf.
  - unfold lift in Hr. injection Hr as Hv Hw. subst w'.
    unfold toggled. destruct it as [i []]; simpl; unfold lift; rewrite Hv;
      simpl; rewrite Hh; reflexivity.
  - injection Hr as -> ->. simpl. unfold toggled.
    destruct it as [i []]; simpl; rewrite Hh; reflexivity.
Qed.

(** The favourite handler writes to the favourites key or to no key, and
    leaves the server alone. *)
Lemma on_fav_click_storage (k : nat) (w : world) :
  let w' := snd (on_fav_click k w) in
  (storage w' = storage w \/
   exists t, storage w' = <[favoritesKey := t]> (storage w)) /\
  network w' = network w /\ requests w' = requests w /\
  styles w' = styles w /\ uncaught w' = uncaught w.
Proof.
  unfold on_fav_click, bind, stopPropagation, this_item. simpl.
  destruct (dom w ≫= _) as [it|]; simpl; [|tauto].
  unfold read_favorites, bind, getItem, lift. simpl.
  destruct (JSON_parse _) as [v|e]; simpl; [|tauto].
  destruct (negb (favorited it)); unfold ret;
    destruct (as_array _) as [l|e]; simpl; eauto 10.
Qed.

(** X7. A click on a favourite button while the stored favourites cannot
    be read as an array: the class of the button is flipped, then the
    handler throws before it writes, so the storage is unchanged and the
    exception is reported.  The propagation was stopped before: the item
    handler does not run and nothing is opened or logged. *)
Theorem fav_click_on_unreadable_store (w : world) (c : carousel)
        (cl : closure) (k : nat) (it : item) (e : exn) :
  dom w = Some c -> handlers c = Some cl -> items c !! k = Some it ->
  favorites_error w = Some e ->
  let w' := after_click (FavButton k) w in
  fst (click (FavButton k) w) = [FavButton k] /\
  item_at w' k = Some (Item (data_id it) (negb (favorited it))) /\
  storage w' = storage w /\
  uncaught w' = (uncaught w ++ [e])%list /\
  opened w' = opened w /\ console w' = console w.
Proof.
  intros Hd Hh Hk He w'. subst w'. unfold after_click.
  rewrite (click_fav_unreadable w c cl k it e Hd Hh Hk He). simpl.
  repeat split. unfold item_at. simpl.
  apply list_lookup_insert_eq. now apply lookup_lt_Some in Hk.
Qed.

Lemma fav_click_on_unreadable_store_witness :
  uncaught (after_click (FavButton 0)
              (with_favorites (NotJson "[1,") loaded_page)) = [SyntaxError] /\
  item_at (after_click (FavButton 0)
             (with_favorites (NotJson "[1,") loaded_page)) 0 =
    Some (Item (num 1) true).
Proof.
  split.
  - eapply (fav_click_on_unreadable_store
              (with_favorites (NotJson "[1,") loaded_page) _ _ 0%nat
              (Item (num 1) false) SyntaxError); reflexivity.
  - eapply (fav_click_on_unreadable_store
              (with_favorites (NotJson "[1,") loaded_page) _ _ 0%nat
              (Item (num 1) false) SyntaxError); reflexivity.
Defined.

(** ** Sequences of toggles *)

Lemma without_app (i : json) (l1 l2 : list json) :
  without i (l1 ++ l2) = (without i l1 ++ without i l2)%list.
Proof. unfold without. apply List.filter_app. Qed.

Lemma without_idem (i : json) (l : list json) :
  without i (without i l) = without i l.
Proof.
  unfold without. induction l as [|x l IH]; simpl; [reflexivity|].
  destruct (strict_eq x i) eqn:E; simpl; [exact IH|].
  rewrite E. simpl. now rewrite IH.
Qed.

Lemma without_absent (i : json) (l : list json) :
  member i l = false -> without i l = l.
Proof.
  unfold member, without. induction l as [|x l IH]; simpl; [reflexivity|].
  intros H. apply Bool.orb_false_iff in H as [E H].
  rewrite E. simpl. now rewrite IH.
Qed.

Lemma without_self (i : json) :
  primitive i = true -> without i [i] = [].
Proof. intros Hp. unfold without. simpl. now rewrite (strict_eq_refl i Hp). Qed.

Lemma id_at_lookup (c : carousel) (k : nat) (it : item) :
  items c !! k = Some it -> id_at c k = data_id it.
Proof. unfold id_at. now intros ->. Qed.

(** A click on a favourite button changes the carousel at its own item
    only: the other items, the offset and the handlers are as before. *)
Lemma fav_click_carousel (j : nat) (w : world) :
  (forall k, j <> k ->
     item_at (after_click (FavButton j) w) k = item_at w k) /\
  offset (after_click (FavButton j) w) = offset w /\
  option_map handlers (dom (after_click (FavButton j) w)) =
    option_map handlers (dom w).
Proof.
  unfold after_click.
  destruct (live (FavButton j) w) eqn:Hl;
    [|now rewrite (click_not_live _ w Hl)].
  rewrite (click_fav_live j w Hl). simpl.
  pose proof (on_fav_click_dom j (set_stopped false w)) as Hdom.
  destruct (on_fav_click j (set_stopped false w)) as [r w1]. simpl in *.
  unfold item_at, offset. autorewrite with frame. rewrite Hdom.
  destruct (dom w) as [c|]; [|auto].
  destruct (items c !! j) as [it|]; simpl; [|auto].
  repeat split. intros k Hk. now apply list_lookup_insert_ne.
Qed.

Lemma fav_clicks_other_item (ks : list nat) (k : nat) (w : world) :
  k ∉ ks ->
  item_at (after_clicks (map FavButton ks) w) k = item_at w k.
Proof.
  revert w. induction ks as [|j ks IH]; intros w Hk; [reflexivity|].
  apply not_elem_of_cons in Hk as [Hkj Hk].
  change (after_clicks (map FavButton (j :: ks)) w)
    with (after_clicks (map FavButton ks) (after_click (FavButton j) w)).
  rewrite (IH _ Hk). apply fav_click_carousel. congruence.
Qed.

Lemma fav_clicks_append (ks : list nat) (w : world) (c : carousel)
      (cl : closure) (favs : list json) :
  dom w = Some c -> handlers c = Some cl ->
  stored_favorites w = Some favs ->
  NoDup ks ->
  Forall (fun k => exists it, items c !! k = Some it /\ favorited it = false)
         ks ->
  stored_favorites (after_clicks (map FavButton ks) w) =
    Some (favs ++ map (id_at c) ks)%list /\
  Forall (fun k => item_at (after_clicks (map FavButton ks) w) k =
                   Some (Item (id_at c k) true)) ks.
Proof.
  revert w c favs. induction ks as [|k ks IH]; intros w c favs Hd Hh Hf Hnd Hall.
  - simpl. rewrite app_nil_r. split; [exact Hf|constructor].
  - apply NoDup_cons in Hnd as [Hk Hnd].
    apply Forall_cons in Hall as [(it & Hit & Hfalse) Hall].
    change (after_clicks (map FavButton (k :: ks)) w)
      with (after_clicks (map FavButton ks) (after_click (FavButton k) w)).
    rewrite (after_click_fav w c cl k it favs Hd Hh Hit Hf).
    set (c1 := Carousel (<[k := toggled it]> (items c)) (scrollLeft c) (Some cl)).
    set (w1 := World _ _ _ (Some c1) _ _ _ _ _ _).
    assert (Hlt : (k < length (items c))%nat) by now apply lookup_lt_Some in Hit.
    assert (Hids : forall j, j <> k -> items c1 !! j = items c !! j).
    { intros j Hj. simpl. now apply list_lookup_insert_ne. }
    assert (Hid1 : forall j, id_at c1 j = id_at c j).
    { intros j. unfold id_at. destruct (decide (j = k)) as [->|Hj].
      - simpl. rewrite list_lookup_insert_eq by exact Hlt. now rewrite Hit.
      - now rewrite Hids. }
    destruct (IH w1 c1 (toggled_favorites it favs)) as [Hs Hi];
      [reflexivity|reflexivity| | exact Hnd | |].
    + apply stored_favorites_array. simpl. apply lookup_insert_eq.
    + rewrite Forall_forall in Hall |- *. intros j Hj.
      destruct (Hall j Hj) as (x & Hx & Hxf). exists x. split; [|exact Hxf].
      rewrite Hids; [exact Hx|]. intros ->. contradiction.
    + unfold toggled_favorites in Hs. rewrite Hfalse in Hs. simpl in Hs.
      simpl map. rewrite Hs, (id_at_lookup c k it Hit).
      split.
      * f_equal. rewrite <- app_assoc. simpl. f_equal. f_equal.
        apply map_ext. exact Hid1.
      * constructor.
        -- rewrite (fav_clicks_other_item ks k w1 Hk).
           unfold item_at. simpl. rewrite list_lookup_insert_eq by exact Hlt.
           unfold toggled. now rewrite Hfalse, (id_at_lookup c k it Hit).
        -- eapply Forall_impl; [exact Hi|]. intros j Hj. simpl in Hj.
           now rewrite Hid1 in Hj.
Qed.

(** X8. Clicks on the favourite buttons of pairwise distinct items that do
    not carry the class yet: the identifiers are appended to the stored
    favourites in the order of the clicks, and each of the items carries the
    class afterwards.  Starting without favourites key, the key then holds
    exactly the clicked identifiers. *)
Theorem favorites_follow_click_order (w : world) (c : carousel)
        (cl : closure) (favs : list json) (ks : list nat) :
  dom w = Some c -> handlers c = Some cl ->
  stored_favorites w = Some favs ->
  NoDup ks ->
  Forall (fun k => exists it, items c !! k = Some it /\ favorited it = false)
         ks ->
  let w' := after_clicks (map FavButton ks) w in
  stored_favorites w' = Some (favs ++ map (id_at c) ks)%list /\
  Forall (fun k => item_at w' k = Some (Item (id_at c k) true)) ks.
Proof. intros. now apply (fav_clicks_append ks w c cl favs). Qed.

Lemma favorites_follow_click_order_witness :
  stored_favorites
    (after_clicks [FavButton 2; FavButton 0; FavButton 3] loaded_page) =
    Some [num 3; num 1; num 4].
Proof.
  apply (favorites_follow_click_order loaded_page loaded_carousel
           (Closure (JArr sample_feed) (Some 100)) [] [2; 0; 3]%nat
           eq_refl eq_refl eq_refl).
  - repeat constructor; intros H;
      repeat (apply elem_of_cons in H as [H|H]; [discriminate|]);
      now apply elem_of_nil in H.
  - repeat constructor; eexists; split; reflexivity.
Defined.

(** X9. A click on the favourite button of an item with a primitive
    identifier [i], on stored favourites that can be read: the stored list
    afterwards is, apart from the occurrences of [i], the list before, in
    the same order.  No other identifier is added, removed or moved. *)
Theorem fav_click_keeps_other_ids (w : world) (c : carousel) (cl : closure)
        (k : nat) (it : item) (favs : list json) :
  dom w = Some c -> handlers c = Some cl -> items c !! k = Some it ->
  stored_favorites w = Some favs ->
  primitive (data_id it) = true ->
  exists favs',
    stored_favorites (after_click (FavButton k) w) = Some favs' /\
    without (data_id it) favs' = without (data_id it) favs.
Proof.
  intros Hd Hh Hk Hf Hp.
  rewrite (after_click_fav w c cl k it favs Hd Hh Hk Hf).
  exists (toggled_favorites it favs). split.
  - apply stored_favorites_array. simpl. apply lookup_insert_eq.
  - unfold toggled_favorites. destruct (negb (favorited it)).
    + now rewrite without_app, (without_self _ Hp), app_nil_r.
    + apply without_idem.
Qed.

Lemma fav_click_keeps_other_ids_witness :
  exists favs',
    stored_favorites
      (after_click (FavButton 1)
         (with_favorites (Json (JArr [num 9; num 2; JStr "x"; num 2]))
            (snd (init (with_favorites
                          (Json (JArr [num 9; num 2; JStr "x"; num 2]))
                          (with_cache (Json (JArr sample_feed))
                                      (blank_page []))))))) = Some favs' /\
    without (num 2) favs' = [num 9; JStr "x"].
Proof.
  eapply (fav_click_keeps_other_ids _ _ _ 1%nat (Item (num 2) true)
            [num 9; num 2; JStr "x"; num 2]); reflexivity.
Defined.

(** X10. Two clicks in a row on the favourite button of an item with a
    primitive identifier [i], on stored favourites [F] that can be read:
    the class of the item is as before, and the stored list is [F] without
    [i], followed by [i] when the item carried the class.  When the item
    did not carry the class and [i] was not stored, the list is exactly
    [F] again. *)
Theorem double_toggle_store (w : world) (c : carousel) (cl : closure)
        (k : nat) (it : item) (favs : list json) :
  dom w = Some c -> handlers c = Some cl -> items c !! k = Some it ->
  stored_favorites w = Some favs ->
  primitive (data_id it) = true ->
  let w2 := after_click (FavButton k) (after_click (FavButton k) w) in
  item_at w2 k = Some it /\
  stored_favorites w2 =
    Some (if favorited it
          then (without (data_id it) favs ++ [data_id it])%list
          else without (data_id it) favs) /\
  (favorited it = false -> member (data_id it) favs = false ->
   stored_favorites w2 = Some favs).
Proof.
  intros Hd Hh Hk Hf Hp w2.
  assert (Hlt : (k < length (items c))%nat) by now apply lookup_lt_Some in Hk.
  assert (H2 : stored_favorites w2 =
               Some (toggled_favorites (toggled it) (toggled_favorites it favs)) /\
               item_at w2 k = Some it).
  { subst w2. rewrite (after_click_fav w c cl k it favs Hd Hh Hk Hf).
    erewrite (after_click_fav _ _ cl k (toggled it) (toggled_favorites it favs));
      [|reflexivity|reflexivity| |].
    - split.
      + apply stored_favorites_array. simpl. apply lookup_insert_eq.
      + unfold item_at. simpl.
        rewrite list_lookup_insert_eq by now rewrite length_insert.
        now rewrite toggled_toggled.
    - simpl. now apply list_lookup_insert_eq.
    - apply stored_favorites_array. simpl. apply lookup_insert_eq. }
  destruct H2 as [Hs Hi].
  assert (Hlist : toggled_favorites (toggled it) (toggled_favorites it favs) =
                  if favorited it
                  then (without (data_id it) favs ++ [data_id it])%list
                  else without (data_id it) favs).
  { unfold toggled_favorites, toggled. simpl.
    destruct (favorited it); simpl; [reflexivity|].
    now rewrite without_app, (without_self _ Hp), app_nil_r. }
  rewrite Hs, Hlist. repeat split; [exact Hi|].
  intros -> Hm. now rewrite (without_absent _ _ Hm).
Qed.

Lemma double_toggle_store_witness :
  stored_favorites
    (after_click (FavButton 2) (after_click (FavButton 2)
       (with_favorites (Json (JArr [num 4; num 1])) loaded_page))) =
    Some [num 4; num 1].
Proof.
  eapply (double_toggle_store
            (with_favorites (Json (JArr [num 4; num 1])) loaded_page)
            _ _ 2%nat (Item (num 3) false) [num 4; num 1]); reflexivity.
Defined.

Lemma fav_click_persisted (j : nat) (w : world) (key : string) :
  key <> favoritesKey ->
  storage (after_click (FavButton j) w) !! key = storage w !! key /\
  network (after_click (FavButton j) w) = network w /\
  requests (after_click (FavButton j) w) = requests w.
Proof.
  intros Hkey. unfold after_click.
  destruct (live (FavButton j) w) eqn:Hl;
    [|now rewrite (click_not_live _ w Hl)].
  rewrite (click_fav_live j w Hl). simpl.
  destruct (on_fav_click_storage j (set_stopped false w))
    as (Hs & Hn & Hr & _).
  destruct (on_fav_click j (set_stopped false w)) as [r w1]. simpl in *.
  autorewrite with frame. rewrite Hn, Hr. repeat split.
  destruct Hs as [->|[t ->]]; [reflexivity|].
  apply lookup_insert_ne. congruence.
Qed.

(** X11. A click on the favourite button of the item of index [j] leaves
    every other item, the scroll offset and every storage key other than
    the favourites key as they were, and touches neither the server nor
    the request log. *)
Theorem fav_click_touches_only_its_item (w : world) (j k : nat)
        (key : string) :
  j <> k -> key <> favoritesKey ->
  let w' := after_click (FavButton j) w in
  item_at w' k = item_at w k /\
  offset w' = offset w /\
  storage w' !! key = storage w !! key /\
  network w' = network w /\ requests w' = requests w.
Proof.
  intros Hjk Hkey w'. subst w'.
  destruct (fav_click_carousel j w) as (Hi & Ho & _).
  split; [now apply Hi|]. split; [exact Ho|].
  now apply fav_click_persisted.
Qed.

Lemma fav_click_touches_only_its_item_witness :
  item_at (after_click (FavButton 0) loaded_page) 1 =
    Some (Item (num 2) false) /\
  storage (after_click (FavButton 0) loaded_page) !! localStorageKey =
    Some (Json (JArr sample_feed)).
Proof.
  split.
  - rewrite (proj1 (fav_click_touches_only_its_item loaded_page 0 1
                      localStorageKey ltac:(discriminate) ltac:(discriminate))).
    reflexivity.
  - destruct (fav_click_touches_only_its_item loaded_page 0 1
                localStorageKey ltac:(discriminate) ltac:(discriminate))
      as (_ & _ & -> & _).
    reflexivity.
Defined.


(** ** What no click does *)

Lemma after_click_server (t : node) (w : world) :
  requests (after_click t w) = requests w /\
  network (after_click t w) = network w /\
  storage (after_click t w) !! localStorageKey =
    storage w !! localStorageKey.
Proof.
  destruct t as [| |k|k].
  - destruct (scroll_click_frame NextButton w (or_introl eq_refl))
      as (-> & _ & _ & _ & _ & _ & -> & ->). auto.
  - destruct (scroll_click_frame PrevButton w (or_intror eq_refl))
      as (-> & _ & _ & _ & _ & _ & -> & ->). auto.
  - destruct (item_click_frame k w) as (-> & _ & -> & ->). auto.
  - destruct (fav_click_persisted k w localStorageKey) as (-> & -> & ->);
      [discriminate|auto].
Qed.

(** X12. No sequence of clicks makes a request, consumes an answer of the
    server or changes the product cache; it adds, removes or reorders no
    item and leaves the attached handlers, with the product list they
    captured, as they are.  What the page shows stays the list of the last
    initialization until the next one. *)
Theorem clicks_never_fetch (ts : list node) (w : world) :
  let w' := after_clicks ts w in
  requests w' = requests w /\ network w' = network w /\
  storage w' !! localStorageKey = storage w !! localStorageKey /\
  option_map (fun c => map data_id (items c)) (dom w') =
    option_map (fun c => map data_id (items c)) (dom w) /\
  option_map handlers (dom w') = option_map handlers (dom w).
Proof.
  revert w. induction ts as [|t ts IH]; intros w; cbv zeta in *;
    [simpl; auto 6|].
  change (after_clicks (t :: ts) w) with (after_clicks ts (after_click t w)).
  destruct (IH (after_click t w)) as (-> & -> & -> & -> & ->).
  destruct (after_click_server t w) as (-> & -> & ->).
  destruct (after_click_shape t w) as (-> & ->). auto 6.
Qed.

(** ** Toggles and reloads *)




(** ** Scrolling back and forth *)






(** ** The cache over a visit *)

(** X16. The cache does not expire.  Once the cache key holds a truthy
    value, no sequence of clicks and page refreshes makes a request or
    changes the cached value: every later initialization works on the
    stored value. *)
Theorem cache_never_expires (w : world) (v : json) (actions : list action) :
  storage w !! localStorageKey = Some (Json v) -> truthy v = true ->
  requests (browse actions w) = requests w /\
  network (browse actions w) = network w /\
  storage (browse actions w) !! localStorageKey = Some (Json v).
Proof.
  revert w. induction actions as [|a actions IH]; intros w Hs Ht; [now simpl|].
  change (browse (a :: actions) w) with (browse actions (act a w)).
  assert (Ha : requests (act a w) = requests w /\
               network (act a w) = network w /\
               storage (act a w) !! localStorageKey = Some (Json v)).
  { destruct a as [t|]; simpl.
    - destruct (after_click_server t w) as (-> & -> & ->). auto.
    - rewrite (init_cached (reload w) v); [|simpl; now rewrite Hs|exact Ht].
      destruct (start_frame v (reload w)) as (-> & -> & -> & _). auto. }
  destruct Ha as (Hr & Hn & Hs').
  destruct (IH (act a w) Hs' Ht) as (-> & -> & ->). auto.
Qed.

Lemma cache_never_expires_witness :
  requests (browse [Click (FavButton 0); Refresh; Click NextButton; Refresh]
                   loaded_page) = [productAPI].
Proof.
  apply (cache_never_expires loaded_page (JArr sample_feed)
           [Click (FavButton 0); Refresh; Click NextButton; Refresh]
           eq_refl eq_refl).
Defined.

(** ** Which product an item opens *)





